(** * Avalara Excise tax plugin (saleor/plugins/avatax/excise)

    Shallow embedding of [excise/__init__.py] (request building and the
    HTTP client) and of [excise/plugin.py] (the plugin and its
    [calculate_checkout_line_total] hook).

    Python exceptions and the observable effects of the code (prints, log
    lines, outgoing HTTP posts) are threaded through a small writer and
    exception monad [M]. *)

From Stdlib Require Import String Ascii ZArith List Bool Lia.
Import ListNotations.
Open Scope string_scope.
Open Scope Z_scope.

(* ------------------------------------------------------------------ *)
(** ** Python exceptions and effects *)

Inductive exn :=
| AttributeError (cls attr : string)   (** [obj.attr] on an object without it *)
| NameError (name : string)            (** an unbound global name *)
| DoesNotExist                         (** Django [QuerySet.get] with no row *)
| MultipleObjectsReturned              (** Django [QuerySet.get] with two rows *)
| KeyError (key : string)
| TypeError
| InvalidOperation.                    (** [decimal.InvalidOperation] *)

Inductive result (A : Type) :=
| Ok (a : A)
| Err (e : exn).
Arguments Ok {A} a.
Arguments Err {A} e.

(** Observable effects: [print], logger output and outgoing HTTP posts. *)
Inductive event :=
| EPrint (s : string)
| EPrintLines (n : nat)       (** [print(lines)] of a list of [n] lines *)
| ELog (s : string)
| EPost (url : string).

Definition M (A : Type) : Type := (list event * result A)%type.

Definition ret {A} (a : A) : M A := ([], Ok a).
Definition raise {A} (e : exn) : M A := ([], Err e).
Definition emit (ev : event) : M unit := ([ev], Ok tt).

Definition bind {A B} (m : M A) (k : A -> M B) : M B :=
  match m with
  | (tr, Ok a) => let (tr', r) := k a in ((tr ++ tr')%list, r)
  | (tr, Err e) => (tr, Err e)
  end.

Notation "x <- m ;; k" := (bind m (fun x => k))
  (at level 61, m at next level, right associativity).
Notation "m ;;; k" := (bind m (fun _ => k))
  (at level 61, right associativity).

Definition lift {A} (r : result A) : M A := ([], r).

Definition result_map {A B} (f : A -> B) (r : result A) : result B :=
  match r with Ok a => Ok (f a) | Err e => Err e end.

(** [mapM] for a Python [for] loop that builds a list and may raise. *)
Fixpoint mapM {A B} (f : A -> M B) (l : list A) : M (list B) :=
  match l with
  | [] => ret []
  | x :: xs => y <- f x ;; ys <- mapM f xs ;; ret (y :: ys)
  end.

(* ------------------------------------------------------------------ *)
(** ** [decimal.Decimal] (finite values) and [prices.Money] *)

(** A finite decimal [coef * 10 ^ exp]. *)
Record Decimal := mkDecimal { coef : Z; exp : Z }.

Definition dec_of_Z (z : Z) : Decimal := mkDecimal z 0.

(** Align both operands on the smaller exponent, as [Decimal.__add__]. *)
Definition dec_align (a b : Decimal) : Z * Z * Z :=
  let e := Z.min (exp a) (exp b) in
  (coef a * 10 ^ (exp a - e), coef b * 10 ^ (exp b - e), e).

(** [Decimal.__eq__] compares numeric values. *)
Definition dec_eqb (a b : Decimal) : bool :=
  let '(x, y, _) := dec_align a b in Z.eqb x y.

(** [prices.Money]: an amount and a currency (any Python value the caller
    passes; the response's [currencyCode] may be [None]). *)
Record Money := mkMoney { amount : Decimal; currency : option string }.

Record TaxedMoney := mkTaxedMoney { net : Money; gross : Money }.

(** [Money.__eq__]: same amount and same currency. *)
Definition money_eqb (a b : Money) : bool :=
  dec_eqb (amount a) (amount b) &&
  match currency a, currency b with
  | Some x, Some y => String.eqb x y
  | None, None => true
  | _, _ => false
  end.

(** The values [_skip_plugin] distinguishes with [isinstance]. *)
Inductive TaxedValue :=
| TV_Money (t : TaxedMoney)
| TV_Range (start stop : TaxedMoney)
| TV_Decimal (d : Decimal).

(** Python's default decimal context: 28 significant digits,
    [ROUND_HALF_EVEN].  Results of [+] and [-] are rounded to it. *)
Definition context_prec : Z := 28.

Fixpoint digits_count (fuel : nat) (c : Z) : Z :=
  match fuel with
  | O => 1
  | S f => if c <? 10 then 1 else 1 + digits_count f (c / 10)
  end.

Definition ndigits (c : Z) : Z :=
  digits_count (Z.to_nat (Z.log2 (Z.abs c) + 1)) (Z.abs c).

Definition dec_round_ctx (d : Decimal) : Decimal :=
  let c := Z.abs (coef d) in
  let k := ndigits c - context_prec in
  if k <=? 0 then d
  else
    let q := c / 10 ^ k in
    let r := c mod 10 ^ k in
    let half := 5 * 10 ^ (k - 1) in
    let q' := if (half <? r) || ((r =? half) && Z.odd q) then q + 1 else q in
    let '(q'', e) := if q' =? 10 ^ context_prec
                     then (10 ^ (context_prec - 1), exp d + k + 1)
                     else (q', exp d + k) in
    mkDecimal (Z.sgn (coef d) * q'') e.

(** [Decimal.__add__] and [Decimal.__sub__] under the default context. *)
Definition dec_add (a b : Decimal) : Decimal :=
  let '(x, y, e) := dec_align a b in dec_round_ctx (mkDecimal (x + y) e).

Definition dec_sub (a b : Decimal) : Decimal :=
  let '(x, y, e) := dec_align a b in dec_round_ctx (mkDecimal (x - y) e).

(** [Decimal(s)] for a string [s]: [s.strip()] with its underscores
    removed, then an optional sign, digits with an optional fraction, an
    optional exponent.  Exact, no rounding.  The spellings of the special
    values ([NaN], [sNaN], [Inf], [Infinity]) have no [Decimal] of this
    finite model: they are not covered and give [None] here, as every
    string Python rejects with [InvalidOperation]. *)
Definition is_digit (c : ascii) : bool :=
  let n := nat_of_ascii c in Nat.leb 48 n && Nat.leb n 57.

Fixpoint digits_prefix (l : list ascii) : list ascii * list ascii :=
  match l with
  | c :: r => if is_digit c then let (ds, rest) := digits_prefix r in (c :: ds, rest)
              else ([], l)
  | [] => ([], [])
  end.

Definition Z_of_digits (ds : list ascii) : Z :=
  fold_left (fun acc c => acc * 10 + Z.of_nat (nat_of_ascii c - 48)) ds 0.

Definition split_sign (l : list ascii) : bool * list ascii :=
  match l with
  | "-"%char :: r => (true, r)
  | "+"%char :: r => (false, r)
  | _ => (false, l)
  end.

Definition parse_exponent (l : list ascii) : option Z :=
  match l with
  | [] => Some 0
  | c :: r =>
      if Ascii.eqb c "e"%char || Ascii.eqb c "E"%char then
        let (neg, r1) := split_sign r in
        match digits_prefix r1 with
        | (c0 :: ds, []) => let z := Z_of_digits (c0 :: ds) in
                            Some (if neg then - z else z)
        | _ => None
        end
      else None
  end.

(** [str.isspace] on the characters [0..255] (read as Latin-1). *)
Definition py_isspace (c : ascii) : bool :=
  let n := nat_of_ascii c in
  (Nat.leb 9 n && Nat.leb n 13) || (Nat.leb 28 n && Nat.leb n 32)
  || Nat.eqb n 133 || Nat.eqb n 160.

Fixpoint lstrip (l : list ascii) : list ascii :=
  match l with
  | c :: r => if py_isspace c then lstrip r else l
  | [] => []
  end.

(** [value.strip().replace("_", "")] *)
Definition strip_underscores (s : string) : list ascii :=
  filter (fun c => negb (Ascii.eqb c "_"%char))
    (rev (lstrip (rev (lstrip (list_ascii_of_string s))))).

Definition parse_decimal (s : string) : option Decimal :=
  let (neg, l1) := split_sign (strip_underscores s) in
  let (intd, l2) := digits_prefix l1 in
  let (fracd, l3) := match l2 with
                     | "."%char :: r => digits_prefix r
                     | _ => ([], l2)
                     end in
  match (intd ++ fracd)%list, parse_exponent l3 with
  | [], _ => None
  | ds, Some e =>
      let c := Z_of_digits ds in
      Some (mkDecimal (if neg then - c else c) (e - Z.of_nat (length fracd)))
  | _, None => None
  end.

(** JSON scalars as [json.loads] returns them; a finite float is given by
    its exact value [m * 2 ^ e]. *)
Inductive jval :=
| JNull
| JBool (b : bool)
| JInt (z : Z)
| JFloat (m e : Z)
| JStr (s : string).

(** [Decimal.from_float]: the exact value of the float.  With
    [abs(f).as_integer_ratio() = (n, d)] and [d = 2 ^ k], the coefficient
    is [n * 5 ^ k] and the exponent [-k]. *)
Definition dec_of_float (m e : Z) : Decimal :=
  if 0 <=? e then mkDecimal (m * 2 ^ e) 0
  else
    let g := Z.gcd m (2 ^ (- e)) in
    let k := Z.log2 (2 ^ (- e) / g) in
    mkDecimal (m / g * 5 ^ k) (- k).

(** [Decimal(v)] for a decoded JSON scalar. *)
Definition Decimal_of (v : jval) : result Decimal :=
  match v with
  | JNull => Err TypeError
  | JBool b => Ok (dec_of_Z (if b then 1 else 0))
  | JInt z => Ok (dec_of_Z z)
  | JFloat m e => Ok (dec_of_float m e)
  | JStr s => match parse_decimal s with
              | Some d => Ok d
              | None => Err InvalidOperation
              end
  end.

(* ------------------------------------------------------------------ *)
(** ** String forms: [str(date)] and [str(uuid.UUID)] *)

Definition digit_char (d : Z) : ascii :=
  if d <? 10 then ascii_of_nat (48 + Z.to_nat d)
  else ascii_of_nat (87 + Z.to_nat d).            (** lower-case a..f *)

(** The [width] lowest digits of [n] in [base], most significant first. *)
Fixpoint fixed_digits (base : Z) (width : nat) (n : Z) : list ascii :=
  match width with
  | O => []
  | S w => (fixed_digits base w (n / base) ++ [digit_char (n mod base)])%list
  end.

Definition pad (base : Z) (width : nat) (n : Z) : string :=
  string_of_list_ascii (fixed_digits base width n).

(** [datetime.date]; [str(d)] is its ISO form [YYYY-MM-DD]. *)
Record date := mkDate { year : Z; month : Z; day : Z }.

Definition str_date (d : date) : string :=
  pad 10 4 (year d) ++ "-" ++ pad 10 2 (month d) ++ "-" ++ pad 10 2 (day d).

(** [uuid.UUID] as its 128-bit integer; [str(u)] is the canonical
    [8-4-4-4-12] lower-case hexadecimal form. *)
Definition str_uuid (u : Z) : string :=
  let h := pad 16 32 u in
  substring 0 8 h ++ "-" ++ substring 8 4 h ++ "-" ++ substring 12 4 h ++ "-"
  ++ substring 16 4 h ++ "-" ++ substring 20 12 h.

(* ------------------------------------------------------------------ *)
(** ** Models (the fields the plugin reads) *)

(** [account.models.Address]; [country] is the alpha-2 code of the
    [CountryField]. *)
Record Address := mkAddress {
  street_address_1 : string;
  street_address_2 : string;
  city : string;
  country_area : string;
  postal_code : string;
  country : string
}.

Record Product := mkProduct { charge_taxes : bool }.

(** [ProductVariantChannelListing]: [price] and [cost_price] are nullable
    money fields. *)
Record ChannelListing := mkChannelListing {
  listing_channel : Z;
  price : option Decimal;
  cost_price : option Decimal
}.

Record ProductVariant := mkVariant {
  sku : string;
  product : Product;
  channel_listings : list ChannelListing
}.

Record CheckoutLine := mkLine {
  line_id : Z;
  quantity : Z;
  variant : ProductVariant
}.

(** [checkout.models.Checkout]; [last_change] is the last-modification
    timestamp (its date part). *)
Record Checkout := mkCheckout {
  token : Z;
  checkout_currency : string;
  email : option string;
  channel : Z;
  lines : list CheckoutLine;
  shipping_address : option Address;
  billing_address : option Address;
  last_change : date
}.

(** [Site.objects.get_current().settings]. *)
Record SiteSettings := mkSiteSettings {
  company_address : option Address;
  include_taxes_in_prices : bool
}.

(** The outcome of [requests.post]: a transport failure (connection error,
    timeout, ...: a [RequestException]) or a response whose body decodes
    to a JSON object or does not decode. *)
Inductive PostOutcome (R : Type) :=
| TransportError
| Response (body : option R).
Arguments TransportError {R}.
Arguments Response {R} body.

(** Ambient state the code reads: the current site's settings, the
    wall-clock date ([date.today()]), django_countries' alpha-2 to alpha-3
    table and the network. *)
Record Env (R : Type) := mkEnv {
  site : SiteSettings;
  today : date;
  iso_alpha3 : list (string * string);
  network : string -> PostOutcome R
}.
Arguments site {R} e.
Arguments today {R} e.
Arguments iso_alpha3 {R} e.
Arguments network {R} e.

(** [Country.alpha3] (django_countries): the table entry, or [""] when the
    code has none. *)
Fixpoint alpha3 (table : list (string * string)) (code : string) : string :=
  match table with
  | [] => ""
  | (a2, a3) :: t => if String.eqb a2 code then a3 else alpha3 t code
  end.

(** The two configuration classes.  [__init__.AvataxConfiguration] is the
    one [__init__.py] annotates; [plugin.AvataxConfiguration] is the one the
    plugin builds and passes around.  A configuration value is an instance
    of either class, and attribute access is checked against its class. *)
Record InitAvataxConfiguration := mkInitConfig {
  username_or_account : string;
  password_or_license : string;
  init_use_sandbox : bool;
  company_name : string;
  autocommit : bool
}.

Record PluginAvataxConfiguration := mkPluginConfig {
  username : option string;
  password : option string;
  use_sandbox : bool;
  company_id : option string
}.

Inductive ConfigObj :=
| CfgInit (c : InitAvataxConfiguration)
| CfgPlugin (c : PluginAvataxConfiguration).

Definition no_attr {A} (attr : string) : M A :=
  raise (AttributeError "AvataxConfiguration" attr).

Definition get_company_name (c : ConfigObj) : M string :=
  match c with CfgInit i => ret (company_name i) | CfgPlugin _ => no_attr "company_name" end.

Definition get_autocommit (c : ConfigObj) : M bool :=
  match c with CfgInit i => ret (autocommit i) | CfgPlugin _ => no_attr "autocommit" end.

Definition get_username_or_account (c : ConfigObj) : M string :=
  match c with
  | CfgInit i => ret (username_or_account i)
  | CfgPlugin _ => no_attr "username_or_account"
  end.

Definition get_password_or_license (c : ConfigObj) : M string :=
  match c with
  | CfgInit i => ret (password_or_license i)
  | CfgPlugin _ => no_attr "password_or_license"
  end.

(* ------------------------------------------------------------------ *)
(** ** The service's response, as decoded by [response.json()] *)

(** One entry of the response's ["lines"]; a missing key is [None]. *)
Record TaxLine := mkTaxLine {
  itemCode : option jval;
  lineAmount : option jval;
  tax : option jval
}.

(** The value of the ["lines"] key: an array of objects, or a JSON
    scalar. *)
Inductive LinesValue :=
| LArray (items : list TaxLine)
| LScalar (v : jval).

(** The response object: the keys the plugin reads ([None] when absent),
    whether an ["error"] key is present, and the other keys. *)
Record TaxResponse := mkTaxResponse {
  currencyCode : option string;
  response_lines : option LinesValue;
  has_error : bool;
  other_keys : list string
}.

(** [{}] *)
Definition empty_response : TaxResponse := mkTaxResponse None None false [].

(** Python truthiness of a dict: it has at least one key. *)
Definition response_truthy (r : TaxResponse) : bool :=
  match currencyCode r, response_lines r, other_keys r with
  | None, None, [] => has_error r
  | _, _, _ => true
  end.

(* ------------------------------------------------------------------ *)
(** ** [excise/__init__.py] *)

(** Names bound at the top level of [excise/__init__.py]. *)
Definition module_globals : list string :=
  [ "json"; "logging"; "dataclass"; "date"; "Decimal"; "TYPE_CHECKING"; "Any";
    "Dict"; "Iterable"; "List"; "Optional"; "Union"; "urljoin"; "opentracing";
    "requests"; "settings"; "Site"; "cache"; "HTTPBasicAuth";
    "base_calculations"; "TaxError"; "TransactionType"; "logger";
    "AvataxConfiguration"; "get_api_url"; "api_post_request";
    "api_get_request"; "generate_request_data"; "TransactionLine";
    "get_checkout_lines_data"; "generate_request_data_from_checkout";
    "get_checkout_tax_data" ].

(** Evaluating a global name inside a function of the module. *)
Definition lookup_global (name : string) : M unit :=
  if existsb (String.eqb name) module_globals then ret tt else raise (NameError name).

Definition get_api_url (use_sandbox : bool) : string :=
  if use_sandbox then "https://excisesbx.avalara.com/api/v1/"
  else "https://excise.avalara.net/api/v1/".

(** [TransactionType.ORDER] of [plugins/avatax]. *)
Definition TransactionType_ORDER : string := "SalesOrder".

Record TransactionLine := mkTransactionLine {
  InvoiceLine : Z;
  ProductCode : string;
  UnitPrice : Decimal;
  BilledUnits : Z;
  AlternateUnitPrice : option Decimal;
  TaxIncluded : bool;
  DestinationCountryCode : string;   (** ISO 3166-1 alpha-3 code *)
  DestinationJurisdiction : string;
  DestinationAddress1 : string;
  DestinationAddress2 : string
}.

(** The address dicts of the request: [address.get(...)] on
    [address.as_data()], or on [{}] (every field [None]). *)
Record AddressFields := mkAddressFields {
  line1 : option string;
  line2 : option string;
  af_city : option string;
  region : option string;
  af_country : option string;
  postalCode : option string
}.

Definition address_fields (a : option Address) : AddressFields :=
  match a with
  | Some a => mkAddressFields (Some (street_address_1 a)) (Some (street_address_2 a))
                (Some (city a)) (Some (country_area a)) (Some (country a))
                (Some (postal_code a))
  | None => mkAddressFields None None None None None None
  end.

(** The ["createTransactionModel"] object. *)
Record TransactionData := mkTransactionData {
  companyCode : string;
  type_ : string;
  td_lines : list TransactionLine;
  code : string;
  date_ : string;
  customerCode : Z;
  shipFrom : AddressFields;
  shipTo : AddressFields;
  commit : bool;
  td_currencyCode : string;
  td_email : option string
}.

Record RequestData := mkRequestData { createTransactionModel : TransactionData }.

Definition generate_request_data (env : Env TaxResponse) (transaction_type : string)
    (lines : list TransactionLine) (transaction_token : string)
    (address : option Address) (customer_email : option string)
    (config : ConfigObj) (currency : string) : M RequestData :=
  company_address <-
    match company_address (site env) with
    | Some a => ret (Some a)
    | None => emit (ELog "To correct calculate taxes by Avatax, company address should be provided in dashboard.settings.") ;;; ret None
    end ;;
  emit (EPrintLines (length lines)) ;;;
  (* data = {"TransactionLines": [lines]} is overwritten at once *)
  companyCode <- get_company_name config ;;
  commit <- get_autocommit config ;;
  ret (mkRequestData
    {| companyCode := companyCode;
       type_ := transaction_type;
       td_lines := lines;
       code := transaction_token;
       date_ := str_date (today env);
       customerCode := 0;
       shipFrom := address_fields company_address;
       shipTo := address_fields address;
       commit := commit;
       td_currencyCode := currency;
       td_email := customer_email |}).

(** [json.dumps(data)]: the [TransactionLine] dataclass instances in
    ["lines"] are not JSON serializable ([TypeError]); every other value of
    the payload is a string, an integer, a boolean, [None] or a dict of
    those.  The text is not modelled: the network model does not read it. *)
Definition json_dumps (data : RequestData) : M unit :=
  match td_lines (createTransactionModel data) with
  | [] => ret tt
  | _ :: _ => raise TypeError
  end.

Definition api_post_request (env : Env TaxResponse) (url : string)
    (data : RequestData) (config : ConfigObj) : M TaxResponse :=
  (* try: *)
  (* auth = HTTPBasicAuth(config.username_or_account, config.password_or_license) *)
  _ <- get_username_or_account config ;;
  _ <- get_password_or_license config ;;
  (* requests.post(url, auth=auth, data=json.dumps(data), timeout=TIMEOUT):
     the arguments are evaluated before the call, from left to right *)
  json_dumps data ;;;
  lookup_global "TIMEOUT" ;;;
  emit (EPost url) ;;;
  match network env url with
  | TransportError =>
      (* except requests.exceptions.RequestException *)
      emit (ELog "Fetching taxes failed") ;;; ret empty_response
  | Response body =>
      emit (ELog "Hit to Avatax to calculate taxes") ;;;
      match body with
      | None =>
          (* except json.JSONDecodeError *)
          emit (ELog "Unable to decode the response from Avatax.") ;;; ret empty_response
      | Some json_response =>
          (* ["error" in response] iterates the [Response] object, whose
             items are [bytes] chunks, never equal to the [str] "error" *)
          ret json_response
      end
  end.

(** Django's [QuerySet.get]. *)
Definition qs_get {A} (rows : list A) : M A :=
  match rows with
  | [x] => ret x
  | [] => raise DoesNotExist
  | _ => raise MultipleObjectsReturned
  end.

(** [obj.attr] where [obj] may be [None]. *)
Definition attr_of {A} (o : option A) (attr : string) : M A :=
  match o with Some a => ret a | None => raise (AttributeError "NoneType" attr) end.

(** [Money.__bool__] is [bool(self.amount)]. *)
Definition money_truthy (d : Decimal) : bool := negb (coef d =? 0).

Definition get_checkout_lines_data (env : Env TaxResponse) (checkout : Checkout)
    : M (list TransactionLine) :=
  (* .filter(variant__product__charge_taxes=True) *)
  let taxable := filter (fun l => charge_taxes (product (variant l))) (lines checkout) in
  let tax_included := include_taxes_in_prices (site env) in
  let ch := channel checkout in
  mapM (fun line =>
    channel_listing <-
      qs_get (filter (fun cl => listing_channel cl =? ch) (channel_listings (variant line))) ;;
    (* stock = line.variant.stocks.for_country(checkout.shipping_address.country).first() *)
    _ <- attr_of (shipping_address checkout) "country" ;;
    unit_price <- attr_of (price channel_listing) "amount" ;;
    ship <- attr_of (shipping_address checkout) "country" ;;
    ret {| InvoiceLine := line_id line;
           ProductCode := sku (variant line);
           UnitPrice := unit_price;
           BilledUnits := quantity line;
           AlternateUnitPrice :=
             match cost_price channel_listing with
             | Some c => if money_truthy c then Some c else None
             | None => None
             end;
           TaxIncluded := tax_included;
           DestinationCountryCode := alpha3 (iso_alpha3 env) (country ship);
           DestinationJurisdiction := country_area ship;
           DestinationAddress1 := street_address_1 ship;
           DestinationAddress2 := street_address_2 ship |})
    taxable.

(** [x or y] for an optional string [x]: [None] and [""] are falsy. *)
Definition str_or (x : option string) (y : string) : string :=
  match x with Some s => if String.eqb s "" then y else s | None => y end.

(** The [discounts] argument is only passed on, to a parameter the code
    never reads, and is left out. *)
Definition generate_request_data_from_checkout (env : Env TaxResponse)
    (checkout : Checkout) (config : ConfigObj) (transaction_token : option string)
    (transaction_type : string) : M RequestData :=
  let address := match shipping_address checkout with
                 | Some a => Some a
                 | None => billing_address checkout
                 end in
  lines <- get_checkout_lines_data env checkout ;;
  let currency := checkout_currency checkout in
  generate_request_data env transaction_type lines
    (str_or transaction_token (str_uuid (token checkout)))
    address (email checkout) config currency.

(** The function body ends after the assignment: it returns [None]. *)
Definition get_checkout_tax_data (env : Env TaxResponse) (checkout : Checkout)
    (config : ConfigObj) : M (option TaxResponse) :=
  _ <- generate_request_data_from_checkout env checkout config None TransactionType_ORDER ;;
  ret None.

(* ------------------------------------------------------------------ *)
(** ** [excise/plugin.py] *)

Record AvataxExcisePlugin := mkPlugin {
  config : PluginAvataxConfiguration;
  active : bool
}.

Definition str_truthy (s : option string) : bool :=
  match s with Some s => negb (String.eqb s "") | None => false end.

Definition _skip_plugin (self : AvataxExcisePlugin) (previous_value : TaxedValue) : bool :=
  if negb (str_truthy (username (config self)) && str_truthy (password (config self)))
  then true
  else if negb (active self) then true
  else
    match previous_value with
    | TV_Range start stop =>
        negb (money_eqb (net start) (gross start)) && negb (money_eqb (net stop) (gross stop))
    | TV_Money t => negb (money_eqb (net t) (gross t))
    | TV_Decimal _ => false
    end.

(** Modelled from the spec: [_validate_checkout] of [plugins/avatax]
    (not among these files).  Section 4.5: "checkout must have a
    resolvable destination address and at least the one line being priced
    must be present and taxable". *)
Definition _validate_checkout (checkout : Checkout) (ls : list CheckoutLine) : bool :=
  negb (match ls with [] => true | _ => false end)
  && forallb (fun l => charge_taxes (product (variant l))) ls
  && match shipping_address checkout, billing_address checkout with
     | None, None => false
     | _, _ => true
     end.

(** [line.get("itemCode") == variant.sku] *)
Definition item_code_matches (l : TaxLine) (s : string) : bool :=
  match itemCode l with Some (JStr c) => String.eqb c s | _ => false end.

(** The loop over [taxes_data.get("lines", [])] (plugin.py, lines 143-151). *)
Fixpoint scan_lines (ls : list TaxLine) (s : string) (currency : option string)
    (base_total : TaxedValue) : result TaxedValue :=
  match ls with
  | [] => Ok base_total
  | line :: rest =>
      if item_code_matches line s then
        (* tax = Decimal(line.get("tax", 0.0)) *)
        match (match tax line with Some v => Decimal_of v | None => Ok (dec_of_Z 0) end) with
        | Err e => Err e
        | Ok t =>
            (* line_net = Decimal(line["lineAmount"]) *)
            match (match lineAmount line with
                   | Some v => Decimal_of v
                   | None => Err (KeyError "lineAmount")
                   end) with
            | Err e => Err e
            | Ok n =>
                Ok (TV_Money {| net := mkMoney n currency;
                                gross := mkMoney (dec_add n t) currency |})
            end
        end
      else scan_lines rest s currency base_total
  end.

(** What [calculate_checkout_line_total] does with [taxes_data]
    (plugin.py, lines 139-151). *)
Definition apply_taxes_data (taxes_data : option TaxResponse) (s : string)
    (base_total : TaxedValue) : result TaxedValue :=
  match taxes_data with
  | None => Ok base_total                                (* not taxes_data *)
  | Some r =>
      if negb (response_truthy r) || has_error r then Ok base_total
      else
        let currency := currencyCode r in
        (* for line in taxes_data.get("lines", []) *)
        match response_lines r with
        | None => scan_lines [] s currency base_total
        | Some (LArray ls) => scan_lines ls s currency base_total
        | Some (LScalar (JStr "")) => Ok base_total      (* no iteration *)
        | Some (LScalar (JStr _)) => Err (AttributeError "str" "get")
        | Some (LScalar _) => Err TypeError              (* not iterable *)
        end
  end.

(** The hook.  [product], [collections], [address], [channel],
    [channel_listing] and [discounts] are not read and are left out.  The
    [_skip_plugin] call at the top of the body is commented out in the
    source. *)
Definition calculate_checkout_line_total (self : AvataxExcisePlugin)
    (env : Env TaxResponse) (checkout : Checkout) (checkout_line : CheckoutLine)
    (v : ProductVariant) (previous_value : TaxedValue) : M TaxedValue :=
  let base_total := previous_value in
  if negb (charge_taxes (product (variant checkout_line))) then
    emit (EPrint "dont charge taxes") ;;; ret base_total
  else if negb (_validate_checkout checkout [checkout_line]) then
    emit (EPrint "checkout not valid") ;;; ret base_total
  else
    taxes_data <- get_checkout_tax_data env checkout (CfgPlugin (config self)) ;;
    lift (apply_taxes_data taxes_data (sku v) base_total).

(* ------------------------------------------------------------------ *)
(** ** Sample data *)

Definition addr_us : Address :=
  mkAddress "1 Main St" "" "Springfield" "IL" "62701" "US".

(** saleor's [COUNTRIES_OVERRIDE] adds the code ["EU"]. *)
Definition addr_eu : Address :=
  mkAddress "1 Rue de la Loi" "" "Brussels" "" "1000" "EU".

(** An excerpt of django_countries' alpha-3 table. *)
Definition alpha3_excerpt : list (string * string) :=
  [("DE", "DEU"); ("PL", "POL"); ("US", "USA")].

Definition usd (cents : Z) : Money := mkMoney (mkDecimal cents (-2)) (Some "USD").

Definition resp_abc : TaxResponse :=
  mkTaxResponse (Some "USD")
    (Some (LArray [mkTaxLine (Some (JStr "ABC")) (Some (JStr "10.00")) (Some (JStr "1.00"))]))
    false [].

Definition resp_eur : TaxResponse :=
  mkTaxResponse (Some "EUR")
    (Some (LArray [mkTaxLine (Some (JStr "ABC")) (Some (JStr "10.00")) (Some (JStr "1.00"))]))
    false [].

Definition resp_other_sku : TaxResponse :=
  mkTaxResponse (Some "USD")
    (Some (LArray [mkTaxLine (Some (JStr "XYZ")) (Some (JStr "10.00")) (Some (JStr "1.00"))]))
    false [].

Definition env_with (r : PostOutcome TaxResponse) (d : date) : Env TaxResponse :=
  mkEnv _ (mkSiteSettings (Some addr_us) false) d alpha3_excerpt (fun _ => r).

Definition day1 : date := mkDate 2021 3 7.
Definition day2 : date := mkDate 2021 3 8.

Definition variant_abc : ProductVariant :=
  mkVariant "ABC" (mkProduct true) [mkChannelListing 1 (Some (mkDecimal 1000 (-2))) None].

Definition line_abc : CheckoutLine := mkLine 7 1 variant_abc.

Definition checkout_with (ship : option Address) (bill : option Address) : Checkout :=
  mkCheckout 0x3f2504e04f8941d39a0c0305e82c3301 "USD" (Some "customer@example.com") 1
    [line_abc] ship bill (mkDate 2021 3 1).

Definition checkout_abc : Checkout := checkout_with (Some addr_us) None.

(** The pre-quote value: net 10.00 / gross 10.00 USD. *)
Definition prev_abc : TaxedValue := TV_Money (mkTaxedMoney (usd 1000) (usd 1000)).

Definition plugin_configured : AvataxExcisePlugin :=
  mkPlugin (mkPluginConfig (Some "user") (Some "secret") true (Some "1234")) true.

Definition plugin_no_credentials : AvataxExcisePlugin :=
  mkPlugin (mkPluginConfig None None true None) true.

Definition init_config : InitAvataxConfiguration :=
  mkInitConfig "user" "secret" true "DEFAULT" false.

Definition line_non_taxable : CheckoutLine :=
  mkLine 8 2 (mkVariant "NT-1" (mkProduct false)
                [mkChannelListing 1 (Some (mkDecimal 500 (-2))) None]).

Definition request_sample : RequestData :=
  mkRequestData (mkTransactionData "DEFAULT" TransactionType_ORDER [] "token"
    "2021-03-07" 0 (address_fields None) (address_fields None) false "USD" None).

(** Ambient state at another date, or with another country table. *)
Definition at_date {R} (env : Env R) (d : date) : Env R :=
  mkEnv _ (site env) d (iso_alpha3 env) (network env).

Definition with_table {R} (env : Env R) (t : list (string * string)) : Env R :=
  mkEnv _ (site env) (today env) t (network env).

(** The effects and the success or exception of a computation, forgetting
    the value it returns. *)
Definition shape {A} (m : M A) : list event * result unit :=
  (fst m, result_map (fun _ => tt) (snd m)).

(* ------------------------------------------------------------------ *)
(** ** [api_get_request] and [AvataxExcisePlugin.validate_authentication] *)

(** Configuration values as the plugin stores them: [None], strings and
    booleans. *)
Inductive cval :=
| CNone
| CStr (s : string)
| CBool (b : bool).

Definition cval_truthy (v : cval) : bool :=
  match v with
  | CNone => false
  | CStr s => negb (String.eqb s "")
  | CBool b => b
  end.

Definition jval_truthy (v : jval) : bool :=
  match v with
  | JNull => false
  | JBool b => b
  | JInt z => negb (z =? 0)
  | JFloat m _ => negb (m =? 0)
  | JStr s => negb (String.eqb s "")
  end.

(** [{item["name"]: item["value"] for item in configuration}]: a later item
    with the same name wins.  [lookup_conf] is [conf.get(name)]. *)
Definition lookup_conf (items : list (string * cval)) (name : string) : option cval :=
  fold_left (fun acc nv => if String.eqb (fst nv) name then Some (snd nv) else acc)
    items None.

(** [conf[name]] *)
Definition conf_item (items : list (string * cval)) (name : string) : M cval :=
  match lookup_conf items name with
  | Some v => ret v
  | None => raise (KeyError name)
  end.

(** [urljoin(base, rel)] where [base]'s path ends with "/" and [rel] is a
    relative path without scheme, leading "/" or dot segments (the case of
    every call in these files): [rel] is appended to [base]. *)
Definition urljoin (base rel : string) : string := base ++ rel.

(** The ping endpoint's JSON object: its ["authenticated"] value, whether an
    ["error"] key is present, and the other keys. *)
Record PingResponse := mkPingResponse {
  authenticated : option jval;
  ping_has_error : bool;
  ping_other_keys : list string
}.

Definition empty_ping : PingResponse := mkPingResponse None false [].

(** [requests.get]'s outcome is the argument [get]. *)
Definition api_get_request (get : PostOutcome PingResponse) (url : string)
    (username_or_account password_or_license : cval) : M PingResponse :=
  (* try: auth = HTTPBasicAuth(username_or_account, password_or_license) *)
  (* requests.get(url, auth=auth, timeout=TIMEOUT) *)
  lookup_global "TIMEOUT" ;;;
  match get with
  | TransportError =>
      (* except requests.exceptions.RequestException *)
      emit (ELog "Failed to fetch data from") ;;; ret empty_ping
  | Response None =>
      (* except json.JSONDecodeError *)
      emit (ELog "Unable to decode the response from Avatax.") ;;; ret empty_ping
  | Response (Some json_response) =>
      emit (ELog "[GET] Hit to") ;;;
      (if ping_has_error json_response
       then emit (ELog "Avatax response contains errors") else ret tt) ;;;
      ret json_response
  end.

(** How [validate_authentication] ends: it returns, or it raises the
    [ValidationError] "Authentication failed".  Other exceptions are in
    [M]. *)
Inductive AuthOutcome :=
| AuthAccepted
| AuthValidationError.

Definition validate_authentication (configuration : list (string * cval))
    (get : PostOutcome PingResponse) : M AuthOutcome :=
  use_sandbox <- conf_item configuration "Use sandbox" ;;
  let url := urljoin (get_api_url (cval_truthy use_sandbox)) "utilities/ping" in
  u <- conf_item configuration "Username" ;;
  p <- conf_item configuration "Password" ;;
  response <- api_get_request get url u p ;;
  match authenticated response with
  | Some v => if jval_truthy v then ret AuthAccepted else ret AuthValidationError
  | None => ret AuthValidationError
  end.

(** [AvataxExcisePlugin.DEFAULT_CONFIGURATION] *)
Definition DEFAULT_CONFIGURATION : list (string * cval) :=
  [("Username", CNone); ("Password", CNone); ("Use sandbox", CBool true);
   ("Company ID", CNone)].

(* ------------------------------------------------------------------ *)
(** ** Decoding [str(uuid.UUID)] back to its integer *)

Definition hex_value (c : ascii) : Z :=
  let n := Z.of_nat (nat_of_ascii c) in
  if n <? 58 then n - 48 else n - 87.

Definition digits_value (base : Z) (l : list ascii) : Z :=
  fold_left (fun acc c => acc * base + hex_value c) l 0.

Definition not_dash (c : ascii) : bool := negb (Ascii.eqb c "-"%char).

(** [uuid.UUID(s).int] for a string [s] in the canonical form: the dashes
    are dropped and the 32 hexadecimal digits read in base 16. *)
Definition uuid_of_str (s : string) : Z :=
  digits_value 16 (filter not_dash (list_ascii_of_string s)).

(** A second checkout of the catalogue sample, with another token. *)
Definition checkout_abc_other : Checkout :=
  mkCheckout 0x9b2e0c4d7a1f4e6b8c3d2a1908f7e6d5 "USD" (Some "customer@example.com") 1
    [line_abc] (Some addr_us) None (mkDate 2021 3 1).

Definition request_of (m : M RequestData) : RequestData :=
  match snd m with Ok r => r | Err _ => request_sample end.

(* ================================================================== *)
(** * Properties *)

(** ** Monad lemmas *)

Lemma bind_shape {A B C D} (m1 : M A) (m2 : M B) (k1 : A -> M C) (k2 : B -> M D) :
  shape m1 = shape m2 ->
  (forall a b, shape (k1 a) = shape (k2 b)) ->
  shape (bind m1 k1) = shape (bind m2 k2).
Proof.
  destruct m1 as [t1 [a|e1]], m2 as [t2 [b|e2]]; unfold shape; simpl;
    intros H Hk; inversion H; subst; auto.
  specialize (Hk a b). unfold shape in Hk.
  destruct (k1 a) as [u1 r1], (k2 b) as [u2 r2]; simpl in *.
  inversion Hk; subst; reflexivity.
Qed.

Lemma mapM_shape {A B C} (f : A -> M B) (g : A -> M C) (l : list A) :
  (forall x, shape (f x) = shape (g x)) ->
  shape (mapM f l) = shape (mapM g l).
Proof.
  intros Hfg. induction l as [|x xs IH]; simpl.
  - reflexivity.
  - apply bind_shape; [apply Hfg|]. intros a b.
    apply bind_shape; [exact IH|]. intros; reflexivity.
Qed.

Lemma mapM_Forall {A B} (f : A -> M B) (P : B -> Prop) (l : list A) :
  (forall x tr y, f x = (tr, Ok y) -> P y) ->
  match snd (mapM f l) with Ok ys => Forall P ys | Err _ => True end.
Proof.
  intros Hf. induction l as [|x xs IH]; simpl.
  - constructor.
  - unfold bind. destruct (f x) as [t1 [y|e]] eqn:Ex; simpl; auto.
    destruct (mapM f xs) as [t2 [ys|e]]; simpl in *; auto.
    constructor; [eapply Hf; eauto | exact IH].
Qed.

(** ** Request building *)

Lemma generate_request_data_plugin_config ty ls tok addr em p cur
    (env : Env TaxResponse) :
  snd (generate_request_data env ty ls tok addr em (CfgPlugin p) cur)
  = Err (AttributeError "AvataxConfiguration" "company_name").
Proof.
  unfold generate_request_data. destruct (company_address (site env)); reflexivity.
Qed.

Lemma get_checkout_lines_data_at_date (env : Env TaxResponse) d c :
  get_checkout_lines_data (at_date env d) c = get_checkout_lines_data env c.
Proof. reflexivity. Qed.

(** ** The response handling of [calculate_checkout_line_total] *)

Lemma scan_lines_no_match ls s cur base :
  Forall (fun x => item_code_matches x s = false) ls ->
  scan_lines ls s cur base = Ok base.
Proof.
  induction 1 as [|x xs Hx _ IH]; simpl; [reflexivity|].
  rewrite Hx. exact IH.
Qed.

(** ** Claims *)

Definition env_abc : Env TaxResponse := env_with (Response (Some resp_abc)) day1.

(** C1: [get_checkout_tax_data], given the configuration class it is
    annotated with, returns [None] whenever it returns.  But
    [calculate_checkout_line_total] passes the plugin's own configuration,
    which has no [company_name]: on a taxable line of a valid checkout the
    call raises [AttributeError] inside [generate_request_data] instead of
    returning [previous_value]. *)
Theorem C1_tax_data_step_raises :
  (forall env c i,
     match snd (get_checkout_tax_data env c (CfgInit i)) with
     | Ok v => v = None
     | Err _ => True
     end)
  /\ calculate_checkout_line_total plugin_configured env_abc checkout_abc line_abc
       variant_abc prev_abc
     = ([EPrintLines 1], Err (AttributeError "AvataxConfiguration" "company_name")).
Proof.
  split.
  - intros env c i. unfold get_checkout_tax_data, bind.
    destruct (generate_request_data_from_checkout env c (CfgInit i) None
                TransactionType_ORDER) as [tr [r|e]]; reflexivity.
  - vm_compute. reflexivity.
Qed.

(** C2: on the spec's scenario (SKU "ABC", service line 10.00 + tax 1.00
    USD) the response handling of the hook would give net 10.00 / gross
    11.00 USD, but the hook itself raises [AttributeError] before any
    request is sent, and [get_checkout_tax_data] would return [None]
    anyway. *)
Theorem C2_scenario_not_applied :
  apply_taxes_data (Some resp_abc) (sku variant_abc) prev_abc
    = Ok (TV_Money (mkTaxedMoney (usd 1000) (usd 1100)))
  /\ dec_eqb (dec_sub (mkDecimal 1100 (-2)) (mkDecimal 1000 (-2))) (mkDecimal 100 (-2)) = true
  /\ calculate_checkout_line_total plugin_configured env_abc checkout_abc line_abc
       variant_abc prev_abc
     = ([EPrintLines 1], Err (AttributeError "AvataxConfiguration" "company_name")).
Proof. vm_compute. repeat split; reflexivity. Qed.

(** C3: a response without the SKU is handled by returning
    [previous_value]; yet with such a response the hook raises
    [AttributeError] on a valid checkout. *)
Theorem C3_no_match_yet_raises :
  apply_taxes_data (Some resp_other_sku) (sku variant_abc) prev_abc = Ok prev_abc
  /\ calculate_checkout_line_total plugin_configured
       (env_with (Response (Some resp_other_sku)) day1) checkout_abc line_abc
       variant_abc prev_abc
     = ([EPrintLines 1], Err (AttributeError "AvataxConfiguration" "company_name")).
Proof. vm_compute. split; reflexivity. Qed.

(** C4: with no credentials [_skip_plugin] says skip, but its call is
    commented out: the hook goes on, prints the request lines and raises
    [AttributeError]. *)
Theorem C4_skip_check_not_applied :
  _skip_plugin plugin_no_credentials prev_abc = true
  /\ calculate_checkout_line_total plugin_no_credentials env_abc checkout_abc line_abc
       variant_abc prev_abc
     = ([EPrintLines 1], Err (AttributeError "AvataxConfiguration" "company_name")).
Proof. vm_compute. split; reflexivity. Qed.

(** C6: for a line whose product has [charge_taxes] false, the hook
    returns [previous_value] after one print, with no HTTP post. *)
Theorem C6_non_taxable_returns_previous self env c l v prev :
  charge_taxes (product (variant l)) = false ->
  calculate_checkout_line_total self env c l v prev
  = ([EPrint "dont charge taxes"], Ok prev).
Proof.
  intros H. unfold calculate_checkout_line_total. rewrite H. reflexivity.
Qed.

Lemma C6_witness :
  charge_taxes (product (variant line_non_taxable)) = false
  /\ calculate_checkout_line_total plugin_configured env_abc checkout_abc
       line_non_taxable variant_abc prev_abc
     = ([EPrint "dont charge taxes"], Ok prev_abc).
Proof.
  split; [reflexivity|].
  apply (C6_non_taxable_returns_previous plugin_configured env_abc checkout_abc
           line_non_taxable variant_abc prev_abc).
  reflexivity.
Defined.

(** C7: [api_post_request] evaluates [TIMEOUT], a name the module never
    binds: it raises [NameError] before any HTTP exchange, so a timeout
    never reaches its [except] clauses and [{}] is never returned. *)
Theorem C7_api_post_request_raises :
  api_post_request (env_with TransportError day1)
    (get_api_url true ++ "transactions/create") request_sample (CfgInit init_config)
  = ([], Err (NameError "TIMEOUT")).
Proof. vm_compute. reflexivity. Qed.

(** C8: two builds of the request from the same checkout, with no
    [transaction_token], at any two dates, carry the same invoice number
    ["code"]: the canonical string of the checkout's token. *)
Theorem C8_invoice_number_stable (env : Env TaxResponse) c cfg ty d1 d2 :
  result_map (fun r => code (createTransactionModel r))
    (snd (generate_request_data_from_checkout (at_date env d1) c cfg None ty))
  = result_map (fun _ => str_uuid (token c))
      (snd (generate_request_data_from_checkout (at_date env d2) c cfg None ty)).
Proof.
  unfold generate_request_data_from_checkout.
  rewrite !get_checkout_lines_data_at_date.
  unfold bind. destruct (get_checkout_lines_data env c) as [tr [ls|e]]; [|reflexivity].
  unfold generate_request_data. simpl.
  destruct (company_address (site env)), cfg; reflexivity.
Qed.

(** C5: with a response in EUR for a USD checkout, the hook does not
    fall back to [previous_value]: on a valid checkout with a taxable line
    it raises [AttributeError] while building the request, before any
    response is read. *)
Theorem C5_eur_response_raises :
  currencyCode resp_eur <> Some (checkout_currency checkout_abc)
  /\ calculate_checkout_line_total plugin_configured
       (env_with (Response (Some resp_eur)) day1) checkout_abc line_abc
       variant_abc prev_abc
     = ([EPrintLines 1], Err (AttributeError "AvataxConfiguration" "company_name")).
Proof.
  split.
  - intros H. vm_compute in H. discriminate H.
  - vm_compute. reflexivity.
Qed.

(** C9 (counterexample): the request's ["date"] is not the checkout's
    last-modification date, and two builds of the same checkout on two days
    carry two dates. *)
Lemma C9_date_is_wall_clock :
  ~ (forall (env : Env TaxResponse) c cfg,
       result_map (fun r => date_ (createTransactionModel r))
         (snd (generate_request_data_from_checkout env c cfg None TransactionType_ORDER))
       = result_map (fun _ => str_date (last_change c))
           (snd (generate_request_data_from_checkout env c cfg None TransactionType_ORDER)))
  /\ result_map (fun r => date_ (createTransactionModel r))
       (snd (generate_request_data_from_checkout (env_with TransportError day1)
               checkout_abc (CfgInit init_config) None TransactionType_ORDER))
     <> result_map (fun r => date_ (createTransactionModel r))
          (snd (generate_request_data_from_checkout (env_with TransportError day2)
                  checkout_abc (CfgInit init_config) None TransactionType_ORDER)).
Proof.
  split.
  - intros H. specialize (H (env_with TransportError day1) checkout_abc (CfgInit init_config)).
    vm_compute in H. discriminate H.
  - vm_compute. discriminate.
Qed.

(** C9 (amended): the request's ["date"] is [str(date.today())], the
    wall-clock date of the build. *)
Theorem C9_date_is_today (env : Env TaxResponse) c cfg tok ty :
  result_map (fun r => date_ (createTransactionModel r))
    (snd (generate_request_data_from_checkout env c cfg tok ty))
  = result_map (fun _ => str_date (today env))
      (snd (generate_request_data_from_checkout env c cfg tok ty)).
Proof.
  unfold generate_request_data_from_checkout, bind.
  destruct (get_checkout_lines_data env c) as [tr [ls|e]]; [|reflexivity].
  unfold generate_request_data. simpl.
  destruct (company_address (site env)), cfg; reflexivity.
Qed.

(** C10 (counterexample): for a shipping address in ["EU"], a code
    saleor adds to django_countries with no alpha-3 entry, the request is
    built without an exception and the line's [DestinationCountryCode] is
    the empty string. *)
Lemma C10_unmapped_country_empty :
  existsb (fun p => String.eqb (fst p) "EU") alpha3_excerpt = false
  /\ result_map (fun r => map DestinationCountryCode (td_lines (createTransactionModel r)))
       (snd (generate_request_data_from_checkout (env_with TransportError day1)
               (checkout_with (Some addr_eu) None) (CfgInit init_config) None
               TransactionType_ORDER))
     = Ok [""].
Proof. vm_compute. split; reflexivity. Qed.

(** C10 (amended): every line of [get_checkout_lines_data] carries
    [Country.alpha3] of the shipping address's country: the table's entry,
    or [""] when it has none.  The table never decides whether the build
    raises: with any other table (even an empty one) the same effects and
    the same exception or success follow. *)
Theorem C10_destination_country_alpha3 (env : Env TaxResponse) c :
  match snd (get_checkout_lines_data env c) with
  | Ok ls =>
      Forall (fun tl => match shipping_address c with
                        | Some a => DestinationCountryCode tl = alpha3 (iso_alpha3 env) (country a)
                        | None => False
                        end) ls
  | Err _ => True
  end
  /\ forall t, shape (get_checkout_lines_data (with_table env t) c)
               = shape (get_checkout_lines_data env c).
Proof.
  split.
  - unfold get_checkout_lines_data. apply mapM_Forall.
    intros x tr y H. unfold bind in H.
    destruct (qs_get _) as [t1 [cl|e]]; [|discriminate H].
    destruct (shipping_address c) as [a|]; simpl in H; [|discriminate H].
    destruct (price cl); simpl in H; [|discriminate H].
    inversion H; subst. reflexivity.
  - intros t. unfold get_checkout_lines_data. apply mapM_shape.
    intros x. unfold bind.
    destruct (qs_get _) as [t1 [cl|e]]; [|reflexivity].
    destruct (shipping_address c) as [a|]; simpl; [|reflexivity].
    destruct (price cl); reflexivity.
Qed.

(** ** Further properties of the hook and the client *)

(** On a taxable line of a checkout that passes validation the hook always
    raises: building the request fails on the line data, or on the
    plugin's configuration, which has no [company_name]. *)
Theorem calculate_taxable_valid_raises self env c l v prev :
  charge_taxes (product (variant l)) = true ->
  _validate_checkout c [l] = true ->
  exists e, snd (calculate_checkout_line_total self env c l v prev) = Err e.
Proof.
  intros Hc Hv. unfold calculate_checkout_line_total. rewrite Hc, Hv. simpl.
  unfold get_checkout_tax_data, generate_request_data_from_checkout, bind.
  destruct (get_checkout_lines_data env c) as [tr [ls|e]]; [|simpl; eauto].
  pose proof (generate_request_data_plugin_config TransactionType_ORDER ls
                (str_or None (str_uuid (token c)))
                (match shipping_address c with Some a => Some a | None => billing_address c end)
                (email c) (config self) (checkout_currency c) env) as Hg.
  destruct (generate_request_data _ _ _ _ _ _ _ _) as [t2 r2].
  simpl in Hg. subst r2. simpl. eauto.
Qed.

Lemma calculate_taxable_valid_raises_witness :
  charge_taxes (product (variant line_abc)) = true
  /\ _validate_checkout checkout_abc [line_abc] = true
  /\ exists e, snd (calculate_checkout_line_total plugin_configured env_abc checkout_abc
                      line_abc variant_abc prev_abc) = Err e.
Proof.
  split; [reflexivity|]. split; [reflexivity|].
  apply calculate_taxable_valid_raises; reflexivity.
Defined.

(** [api_post_request] raises for every URL, payload, configuration and
    network behaviour, before any HTTP post: [AttributeError] for the
    plugin's configuration; otherwise [TypeError] from [json.dumps] when the
    payload has transaction lines, and [NameError] on [TIMEOUT] when it has
    none. *)
Theorem api_post_request_always_raises (env : Env TaxResponse) url data cfg :
  api_post_request env url data cfg
  = ([], Err (match cfg with
              | CfgInit _ =>
                  match td_lines (createTransactionModel data) with
                  | [] => NameError "TIMEOUT"
                  | _ :: _ => TypeError
                  end
              | CfgPlugin _ => AttributeError "AvataxConfiguration" "username_or_account"
              end)).
Proof.
  unfold api_post_request, json_dumps.
  destruct cfg; [destruct (td_lines (createTransactionModel data))|]; reflexivity.
Qed.

(** ** Credential validation *)

(** [validate_authentication] never completes and never reports
    "Authentication failed": it raises [KeyError] for the first of
    ["Use sandbox"], ["Username"], ["Password"] missing from the
    configuration, and otherwise [NameError] on [TIMEOUT] inside
    [api_get_request], before any request, whatever the endpoint would
    answer. *)
Theorem validate_authentication_always_raises configuration get :
  validate_authentication configuration get
  = ([], Err (match lookup_conf configuration "Use sandbox",
                    lookup_conf configuration "Username",
                    lookup_conf configuration "Password" with
              | None, _, _ => KeyError "Use sandbox"
              | Some _, None, _ => KeyError "Username"
              | Some _, Some _, None => KeyError "Password"
              | Some _, Some _, Some _ => NameError "TIMEOUT"
              end)).
Proof.
  unfold validate_authentication, conf_item.
  destruct (lookup_conf configuration "Use sandbox"),
           (lookup_conf configuration "Username"),
           (lookup_conf configuration "Password"); reflexivity.
Qed.

(** ** [_skip_plugin] *)

Lemma money_eqb_same (a b : Money) :
  dec_eqb (amount a) (amount b) = true -> currency a = currency b ->
  money_eqb a b = true.
Proof.
  intros Hd Hc. unfold money_eqb. rewrite Hd, Hc.
  destruct (currency b); simpl; [apply String.eqb_refl | reflexivity].
Qed.

(** For a configured, active plugin a [TaxedMoneyRange] is skipped only
    when both its endpoints are taxed: one endpoint whose net and gross are
    the same amount (compared as numbers) and currency is enough to run the
    plugin. *)
Theorem skip_plugin_range_needs_both_taxed self s t :
  str_truthy (username (config self)) = true ->
  str_truthy (password (config self)) = true ->
  active self = true ->
  dec_eqb (amount (net s)) (amount (gross s)) = true ->
  currency (net s) = currency (gross s) ->
  _skip_plugin self (TV_Range s t) = false /\ _skip_plugin self (TV_Range t s) = false.
Proof.
  intros Hu Hp Ha Hd Hc. unfold _skip_plugin. rewrite Hu, Hp, Ha. simpl.
  rewrite (money_eqb_same _ _ Hd Hc). simpl.
  split; [reflexivity | apply andb_false_r].
Qed.

Lemma skip_plugin_range_needs_both_taxed_witness :
  _skip_plugin plugin_configured
    (TV_Range (mkTaxedMoney (mkMoney (mkDecimal 100 (-1)) (Some "USD"))
                            (mkMoney (mkDecimal 1000 (-2)) (Some "USD")))
              (mkTaxedMoney (usd 1000) (usd 1100))) = false
  /\ _skip_plugin plugin_configured
    (TV_Range (mkTaxedMoney (usd 1000) (usd 1100))
              (mkTaxedMoney (mkMoney (mkDecimal 100 (-1)) (Some "USD"))
                            (mkMoney (mkDecimal 1000 (-2)) (Some "USD")))) = false.
Proof.
  apply skip_plugin_range_needs_both_taxed; reflexivity.
Defined.

(** ** [get_checkout_lines_data] *)

Lemma filter_none {A} (f : A -> bool) l :
  forallb (fun x => negb (f x)) l = true -> filter f l = [].
Proof.
  induction l as [|x xs IH]; simpl; [reflexivity|].
  intros H. apply andb_prop in H as [Hx Hxs].
  destruct (f x); [discriminate Hx|]. apply IH, Hxs.
Qed.

(** A checkout without any line whose product charges taxes gives no
    transaction line and no exception, even without any address. *)
Theorem get_checkout_lines_data_no_taxable (env : Env TaxResponse) c :
  forallb (fun l => negb (charge_taxes (product (variant l)))) (lines c) = true ->
  get_checkout_lines_data env c = ([], Ok []).
Proof.
  intros H. unfold get_checkout_lines_data. rewrite (filter_none _ _ H). reflexivity.
Qed.

Definition checkout_non_taxable_no_address : Checkout :=
  mkCheckout 1 "USD" None 1 [line_non_taxable] None None (mkDate 2021 3 1).

Lemma get_checkout_lines_data_no_taxable_witness :
  forallb (fun l => negb (charge_taxes (product (variant l))))
    (lines checkout_non_taxable_no_address) = true
  /\ get_checkout_lines_data env_abc checkout_non_taxable_no_address = ([], Ok []).
Proof.
  split; [reflexivity|]. apply get_checkout_lines_data_no_taxable. reflexivity.
Defined.

(** Without a shipping address, a checkout with a taxable line always
    raises, whatever its billing address: the first taxable line's channel
    listing is looked up ([DoesNotExist] or [MultipleObjectsReturned]),
    then [checkout.shipping_address.country] raises [AttributeError]. *)
Theorem get_checkout_lines_data_no_shipping (env : Env TaxResponse) c l rest :
  shipping_address c = None ->
  filter (fun l => charge_taxes (product (variant l))) (lines c) = l :: rest ->
  get_checkout_lines_data env c
  = ([], Err (match filter (fun cl => listing_channel cl =? channel c)
                      (channel_listings (variant l)) with
              | [_] => AttributeError "NoneType" "country"
              | [] => DoesNotExist
              | _ => MultipleObjectsReturned
              end)).
Proof.
  intros Hs Hf. unfold get_checkout_lines_data. rewrite Hf. simpl.
  destruct (filter _ (channel_listings (variant l))) as [|x [|y z]];
    simpl; try rewrite Hs; reflexivity.
Qed.

Lemma get_checkout_lines_data_no_shipping_witness :
  shipping_address (checkout_with None (Some addr_us)) = None
  /\ get_checkout_lines_data env_abc (checkout_with None (Some addr_us))
     = ([], Err (AttributeError "NoneType" "country")).
Proof.
  split; [reflexivity|].
  rewrite (get_checkout_lines_data_no_shipping env_abc (checkout_with None (Some addr_us))
             line_abc [] eq_refl eq_refl).
  reflexivity.
Defined.

Lemma mapM_Forall2 {A B} (f : A -> M B) (R : A -> B -> Prop) (l : list A) :
  (forall x tr y, f x = (tr, Ok y) -> R x y) ->
  match snd (mapM f l) with Ok ys => Forall2 R l ys | Err _ => True end.
Proof.
  intros Hf. induction l as [|x xs IH]; simpl.
  - constructor.
  - unfold bind. destruct (f x) as [t1 [y|e]] eqn:Ex; simpl; auto.
    destruct (mapM f xs) as [t2 [ys|e]]; simpl in *; auto.
    constructor; [eapply Hf; eauto | exact IH].
Qed.

(** On success, [get_checkout_lines_data] gives one transaction line per
    checkout line whose product charges taxes, in the same order: its id,
    the variant's SKU, its quantity, the site's [include_taxes_in_prices],
    the price of the variant's unique listing in the checkout's channel,
    and that listing's cost price unless it is missing or zero. *)
Theorem get_checkout_lines_data_lines (env : Env TaxResponse) c :
  match snd (get_checkout_lines_data env c) with
  | Ok ls =>
      Forall2 (fun l tl =>
        InvoiceLine tl = line_id l /\ ProductCode tl = sku (variant l)
        /\ BilledUnits tl = quantity l
        /\ TaxIncluded tl = include_taxes_in_prices (site env)
        /\ exists cl, filter (fun cl => listing_channel cl =? channel c)
                        (channel_listings (variant l)) = [cl]
                      /\ price cl = Some (UnitPrice tl)
                      /\ AlternateUnitPrice tl
                         = match cost_price cl with
                           | Some d => if money_truthy d then Some d else None
                           | None => None
                           end)
        (filter (fun l => charge_taxes (product (variant l))) (lines c)) ls
  | Err _ => True
  end.
Proof.
  unfold get_checkout_lines_data. apply mapM_Forall2.
  intros x tr y H. unfold bind in H.
  destruct (filter _ (channel_listings (variant x))) as [|cl [|cl' z]] eqn:Hcl;
    simpl in H; try discriminate H.
  destruct (shipping_address c) as [a|]; simpl in H; [|discriminate H].
  destruct (price cl) eqn:Hp; simpl in H; [|discriminate H].
  inversion H; subst; simpl.
  repeat split; auto. exists cl. auto.
Qed.

(** A request built from a checkout is shipped to the checkout's shipping
    address when it has one, and to its billing address only when it has
    none; in that case a successful build has no transaction line at all (a
    taxable line would have raised). *)
Theorem generate_request_ship_to (env : Env TaxResponse) c cfg tok ty r :
  snd (generate_request_data_from_checkout env c cfg tok ty) = Ok r ->
  shipTo (createTransactionModel r)
  = address_fields (match shipping_address c with
                    | Some a => Some a
                    | None => billing_address c
                    end)
  /\ (shipping_address c = None -> td_lines (createTransactionModel r) = []).
Proof.
  intros H. unfold generate_request_data_from_checkout in H.
  destruct (shipping_address c) as [a|] eqn:Hs.
  - split; [|discriminate].
    unfold bind in H. destruct (get_checkout_lines_data env c) as [tr [ls|e]];
      [|discriminate H].
    unfold generate_request_data in H.
    destruct (company_address (site env)), cfg; simpl in H;
      try discriminate H; inversion H; subst; reflexivity.
  - destruct (filter (fun l => charge_taxes (product (variant l))) (lines c))
      as [|l rest] eqn:Hf.
    + assert (Hl : get_checkout_lines_data env c = ([], Ok [])).
      { unfold get_checkout_lines_data. rewrite Hf. reflexivity. }
      rewrite Hl in H. unfold bind, generate_request_data in H.
      destruct (company_address (site env)), cfg; simpl in H;
        inversion H; subst; split; reflexivity.
    + rewrite (get_checkout_lines_data_no_shipping env c l rest Hs Hf) in H.
      discriminate H.
Qed.

Definition checkout_billing_only : Checkout :=
  mkCheckout 2 "USD" None 1 [line_non_taxable] None (Some addr_eu) (mkDate 2021 3 1).

Lemma generate_request_ship_to_witness :
  exists r1 r2,
    snd (generate_request_data_from_checkout env_abc checkout_billing_only
           (CfgInit init_config) None TransactionType_ORDER) = Ok r1
    /\ shipTo (createTransactionModel r1) = address_fields (Some addr_eu)
    /\ td_lines (createTransactionModel r1) = []
    /\ snd (generate_request_data_from_checkout env_abc checkout_abc
              (CfgInit init_config) None TransactionType_ORDER) = Ok r2
    /\ shipTo (createTransactionModel r2) = address_fields (Some addr_us).
Proof.
  eexists. eexists.
  split; [vm_compute; reflexivity|].
  split; [apply (generate_request_ship_to env_abc checkout_billing_only
                   (CfgInit init_config) None TransactionType_ORDER); reflexivity|].
  split; [apply (generate_request_ship_to env_abc checkout_billing_only
                   (CfgInit init_config) None TransactionType_ORDER); reflexivity|].
  split; [vm_compute; reflexivity|].
  apply (generate_request_ship_to env_abc checkout_abc
           (CfgInit init_config) None TransactionType_ORDER); reflexivity.
Defined.

(** ** The hook and the tax service *)

(** Whatever the tax service would answer, [calculate_checkout_line_total]
    has the same effects and the same result: no answer of the service
    ever reaches the caller. *)
Theorem calculate_checkout_line_total_ignores_service self (env : Env TaxResponse)
    answer c l v prev :
  calculate_checkout_line_total self
    (mkEnv _ (site env) (today env) (iso_alpha3 env) answer) c l v prev
  = calculate_checkout_line_total self env c l v prev.
Proof. reflexivity. Qed.

(** ** The transaction code built from a checkout token *)

Lemma hex_value_digit_char d : 0 <= d < 16 -> hex_value (digit_char d) = d.
Proof.
  intros Hd.
  assert (d = 0 \/ d = 1 \/ d = 2 \/ d = 3 \/ d = 4 \/ d = 5 \/ d = 6 \/ d = 7 \/
          d = 8 \/ d = 9 \/ d = 10 \/ d = 11 \/ d = 12 \/ d = 13 \/ d = 14 \/ d = 15)
    as Hc by lia.
  repeat destruct Hc as [->|Hc]; [reflexivity ..|]. subst. reflexivity.
Qed.

Lemma not_dash_digit_char d : 0 <= d < 16 -> not_dash (digit_char d) = true.
Proof.
  intros Hd.
  assert (d = 0 \/ d = 1 \/ d = 2 \/ d = 3 \/ d = 4 \/ d = 5 \/ d = 6 \/ d = 7 \/
          d = 8 \/ d = 9 \/ d = 10 \/ d = 11 \/ d = 12 \/ d = 13 \/ d = 14 \/ d = 15)
    as Hc by lia.
  repeat destruct Hc as [->|Hc]; [reflexivity ..|]. subst. reflexivity.
Qed.

Lemma fixed_digits_length base w n : length (fixed_digits base w n) = w.
Proof.
  revert n. induction w as [|w IH]; intros n; simpl; [reflexivity|].
  rewrite length_app, IH. simpl. lia.
Qed.

Lemma fixed_digits_not_dash w n :
  Forall (fun c => not_dash c = true) (fixed_digits 16 w n).
Proof.
  revert n. induction w as [|w IH]; intros n; simpl; [constructor|].
  apply Forall_app. split; [apply IH|].
  constructor; [|constructor]. apply not_dash_digit_char.
  apply Z.mod_pos_bound. lia.
Qed.

Lemma digits_value_snoc base l c :
  digits_value base (l ++ [c])%list = digits_value base l * base + hex_value c.
Proof. unfold digits_value. rewrite fold_left_app. reflexivity. Qed.

(** Reading back the [w] hexadecimal digits gives [n] modulo [16 ^ w]. *)
Lemma digits_value_fixed_digits w n :
  digits_value 16 (fixed_digits 16 w n) = n mod 16 ^ Z.of_nat w.
Proof.
  revert n. induction w as [|w IH]; intros n.
  - simpl. rewrite Z.mod_1_r. reflexivity.
  - cbn [fixed_digits]. rewrite digits_value_snoc, IH.
    rewrite hex_value_digit_char by (apply Z.mod_pos_bound; lia).
    rewrite Nat2Z.inj_succ, Z.pow_succ_r by lia.
    rewrite Z.rem_mul_r by (try apply Z.pow_pos_nonneg; lia). lia.
Qed.

Lemma list_ascii_of_string_append s1 s2 :
  list_ascii_of_string (s1 ++ s2) = (list_ascii_of_string s1 ++ list_ascii_of_string s2)%list.
Proof.
  induction s1 as [|c s1 IH]; simpl; [reflexivity|]. rewrite IH. reflexivity.
Qed.

Lemma list_ascii_of_substring n m s :
  list_ascii_of_string (substring n m s) = firstn m (skipn n (list_ascii_of_string s)).
Proof.
  revert n m. induction s as [|c s IH]; intros n m.
  - destruct n, m; reflexivity.
  - destruct n as [|n].
    + destruct m as [|m]; [reflexivity|]. simpl. rewrite IH. reflexivity.
    + simpl. apply IH.
Qed.

Lemma filter_all_true {A} (f : A -> bool) l :
  Forall (fun x => f x = true) l -> filter f l = l.
Proof.
  induction 1 as [|x l Hx _ IH]; simpl; [reflexivity|]. rewrite Hx, IH. reflexivity.
Qed.

Lemma Forall_firstn_skipn {A} (P : A -> Prop) n m l :
  Forall P l -> Forall P (firstn m (skipn n l)).
Proof.
  intros H. apply Forall_forall. intros x Hx.
  rewrite Forall_forall in H. apply H.
  assert (Hs : In x (firstn m (skipn n l) ++ skipn m (skipn n l))%list)
    by (apply in_or_app; left; exact Hx).
  rewrite firstn_skipn in Hs.
  rewrite <- (firstn_skipn n l). apply in_or_app. right. exact Hs.
Qed.

(** [uuid.UUID(str(u)).int = u] for every 128-bit [u]: the canonical
    string keeps all the digits of the token. *)
Lemma uuid_of_str_str_uuid u :
  0 <= u < 2 ^ 128 -> uuid_of_str (str_uuid u) = u.
Proof.
  intros Hu. unfold uuid_of_str, str_uuid, pad.
  rewrite !list_ascii_of_string_append, !list_ascii_of_substring,
    list_ascii_of_string_of_list_ascii.
  pose proof (fixed_digits_not_dash 32 u) as Hall.
  pose proof (fixed_digits_length 16 32 u) as Hlen.
  pose proof (digits_value_fixed_digits 32 u) as Hval.
  remember (fixed_digits 16 32 u) as l eqn:El; clear El.
  rewrite !filter_app. cbn [list_ascii_of_string filter].
  change (not_dash "-"%char) with false. cbn iota.
  rewrite !filter_all_true by (apply Forall_firstn_skipn; exact Hall).
  cbn [app].
  replace (firstn 8 (skipn 0 l) ++ firstn 4 (skipn 8 l) ++ firstn 4 (skipn 12 l)
           ++ firstn 4 (skipn 16 l) ++ firstn 12 (skipn 20 l))%list with l.
  - rewrite Hval. apply Z.mod_small. change (16 ^ Z.of_nat 32) with (2 ^ 128). exact Hu.
  - do 32 (destruct l as [|? l]; [discriminate Hlen|]).
    destruct l; [reflexivity | discriminate Hlen].
Qed.

(** Without a [transaction_token], a successful build of the request from a
    checkout has [str(checkout.token)] as its code. *)
Lemma generate_request_data_from_checkout_code env c cfg ty r :
  snd (generate_request_data_from_checkout env c cfg None ty) = Ok r ->
  code (createTransactionModel r) = str_uuid (token c).
Proof.
  unfold generate_request_data_from_checkout, bind.
  destruct (get_checkout_lines_data env c) as [tr [ls|e]]; [|discriminate].
  unfold generate_request_data. simpl.
  destruct (company_address (site env)), cfg; simpl; intros H; inversion H; reflexivity.
Qed.

(** Two checkouts with different (128-bit) tokens, built without a
    [transaction_token], get different transaction codes, whatever the
    environments, configurations and transaction types of the two builds. *)
Theorem checkout_transaction_codes_distinct env1 env2 c1 c2 cfg1 cfg2 ty1 ty2 r1 r2 :
  0 <= token c1 < 2 ^ 128 -> 0 <= token c2 < 2 ^ 128 -> token c1 <> token c2 ->
  snd (generate_request_data_from_checkout env1 c1 cfg1 None ty1) = Ok r1 ->
  snd (generate_request_data_from_checkout env2 c2 cfg2 None ty2) = Ok r2 ->
  code (createTransactionModel r1) <> code (createTransactionModel r2).
Proof.
  intros H1 H2 Hne E1 E2.
  rewrite (generate_request_data_from_checkout_code _ _ _ _ _ E1),
    (generate_request_data_from_checkout_code _ _ _ _ _ E2).
  intros Heq. apply Hne.
  rewrite <- (uuid_of_str_str_uuid (token c1) H1), <- (uuid_of_str_str_uuid (token c2) H2).
  rewrite Heq. reflexivity.
Qed.

Lemma checkout_transaction_codes_distinct_witness :
  token checkout_abc <> token checkout_abc_other
  /\ code (createTransactionModel
             (request_of (generate_request_data_from_checkout env_abc checkout_abc
                            (CfgInit init_config) None TransactionType_ORDER)))
     <> code (createTransactionModel
                (request_of (generate_request_data_from_checkout env_abc checkout_abc_other
                               (CfgInit init_config) None TransactionType_ORDER))).
Proof.
  split; [vm_compute; discriminate|].
  apply (checkout_transaction_codes_distinct env_abc env_abc checkout_abc checkout_abc_other
           (CfgInit init_config) (CfgInit init_config) TransactionType_ORDER
           TransactionType_ORDER);
    solve [vm_compute; discriminate | vm_compute; reflexivity | simpl; lia].
Defined.
